(** * The serialized module format (lib/Serialization/ModuleFormat.h)

    A shallow embedding of the constants, identifier types, block identifiers
    and record layouts that make up the on-disk schema of a serialized module,
    followed by the properties of that schema. *)

From Stdlib Require Import List NArith Bool Lia.
Import ListNotations.
Local Open Scope N_scope.

(** ** Record-layout vocabulary

    Modelled from the spec: the field kinds of
    swift/Serialization/BCRecordLayout.h, which ModuleFormat.h includes and
    whose templates it instantiates.  A field is a literal (a value fixed by
    the layout, such as a record code), a fixed-width unsigned integer, a
    blob, or an array of one element kind. *)
Inductive BCField : Type :=
| BCLiteral (value : N)
| BCFixed (width : N)
| BCBlob
| BCArray (elt : BCField).

(** [BCGenericRecordLayout<IDField, Fields...>]: the record code is itself a
    field of the record. *)
Record BCGenericRecordLayout : Type := mkLayout {
  layout_id : BCField;
  layout_fields : list BCField
}.

(** [BCRecordLayout<Code, Fields...>]: a generic layout whose code field is
    the literal [Code]. *)
Definition BCRecordLayout (code : N) (fields : list BCField)
  : BCGenericRecordLayout :=
  {| layout_id := BCLiteral code; layout_fields := fields |}.

Fixpoint BCField_eqb (a b : BCField) : bool :=
  match a, b with
  | BCLiteral x, BCLiteral y => x =? y
  | BCFixed x, BCFixed y => x =? y
  | BCBlob, BCBlob => true
  | BCArray x, BCArray y => BCField_eqb x y
  | _, _ => false
  end.

(** A scalar field holds one unsigned value; blobs and arrays are payloads. *)
Definition isPayload (f : BCField) : bool :=
  match f with
  | BCBlob | BCArray _ => true
  | BCLiteral _ | BCFixed _ => false
  end.

Definition isScalar (f : BCField) : bool := negb (isPayload f).

(** The values a scalar field can carry. *)
Definition fieldAccepts (f : BCField) (v : N) : bool :=
  match f with
  | BCLiteral c => v =? c
  | BCFixed w => v <? 2 ^ w
  | BCBlob | BCArray _ => false
  end.

(** Modelled from the spec: [Fixnum<Bits>], a template declared in another
    header, an unsigned integer that fits in [Bits] bits. *)
Record Fixnum (Bits : N) : Type := mkFixnum {
  fixnum_value : N;
  fixnum_inrange : (fixnum_value <? 2 ^ Bits) = true
}.
Arguments fixnum_value {Bits} _.
Arguments fixnum_inrange {Bits} _.

(** ** Constants and identifier types *)

(** Magic number for serialized module files. *)
Definition SIGNATURE : list N := [0xE2; 0x9C; 0xA8; 0x0E].

(** Serialized module format major version number. *)
Definition VERSION_MAJOR : N := 1.

(** Serialized module format minor version number. *)
Definition VERSION_MINOR : N := 0.

(** Discriminator between Decls and Types. *)
Inductive DeclOrType : Type := IsDecl | IsType.

Definition DeclID : Type := Fixnum 31.
Definition DeclIDField : BCField := BCFixed 31.

(** TypeID must be the same as DeclID because it is stored in the same way. *)
Definition TypeID : Type := DeclID.
Definition TypeIDField : BCField := DeclIDField.

Definition BitOffset : Type := Fixnum 31.
Definition BitOffsetField : BCField := BCFixed 31.

(** ** Block identifiers

    [llvm::bitc::FIRST_APPLICATION_BLOCKID] comes from llvm/Bitcode/BitCodes.h
    and is taken as a parameter.  Enumerators without an initializer take the
    value of their predecessor plus one. *)
Section BlockID.
Variable FIRST_APPLICATION_BLOCKID : N.

Definition CONTROL_BLOCK_ID : N := FIRST_APPLICATION_BLOCKID.
Definition INPUT_BLOCK_ID : N := CONTROL_BLOCK_ID + 1.
Definition DECLS_AND_TYPES_BLOCK_ID : N := INPUT_BLOCK_ID + 1.
Definition INDEX_BLOCK_ID : N := DECLS_AND_TYPES_BLOCK_ID + 1.

Definition normalBlockIDs : list N :=
  [CONTROL_BLOCK_ID; INPUT_BLOCK_ID; DECLS_AND_TYPES_BLOCK_ID; INDEX_BLOCK_ID].
End BlockID.

(** An empty block that signals to the reader to throw away the module and
    reparse the source files in the input block. *)
Definition FALL_BACK_TO_TRANSLATION_UNIT_ID : N := 100.

Definition blockIDs (first : N) : list N :=
  normalBlockIDs first ++ [FALL_BACK_TO_TRANSLATION_UNIT_ID].

(** The value LLVM gives to [FIRST_APPLICATION_BLOCKID]. *)
Definition llvm_FIRST_APPLICATION_BLOCKID : N := 8.

(** ** The record types within the control block *)
Module control_block.
Definition METADATA : N := 1.

Definition MetadataLayout : BCGenericRecordLayout :=
  BCRecordLayout METADATA
    [ BCFixed 16  (* Module format major version *)
    ; BCFixed 16  (* Module format minor version *)
    ; BCBlob      (* misc. version information *)
    ].

Definition records : list (N * BCGenericRecordLayout) :=
  [ (METADATA, MetadataLayout) ].
End control_block.

(** ** The record types within the input block *)
Module input_block.
Definition SOURCE_FILE : N := 1.

Definition SourceFileLayout : BCGenericRecordLayout :=
  BCRecordLayout SOURCE_FILE
    [ BCBlob  (* path *) ].

Definition records : list (N * BCGenericRecordLayout) :=
  [ (SOURCE_FILE, SourceFileLayout) ].
End input_block.

(** ** The record types within the "decls-and-types" block *)
Module decls_block.
Definition BUILTIN_TYPE : N := 1.
Definition NAME_ALIAS_TYPE : N := BUILTIN_TYPE + 1.
Definition STRUCT_TYPE : N := NAME_ALIAS_TYPE + 1.

Definition TYPE_ALIAS_DECL : N := 100.
Definition STRUCT_DECL : N := TYPE_ALIAS_DECL + 1.
Definition CONSTRUCTOR_DECL : N := STRUCT_DECL + 1.
Definition VAR_DECL : N := CONSTRUCTOR_DECL + 1.

Definition DECL_CONTEXT : N := 254.
Definition NAME_HACK : N := 255.

Definition BuiltinTypeLayout : BCGenericRecordLayout :=
  BCRecordLayout BUILTIN_TYPE
    [ BCBlob  (* name of the builtin type *) ].

Definition NameAliasTypeLayout : BCGenericRecordLayout :=
  BCRecordLayout NAME_ALIAS_TYPE
    [ DeclIDField  (* typealias decl *) ].

Definition StructTypeLayout : BCGenericRecordLayout :=
  BCRecordLayout STRUCT_TYPE
    [ DeclIDField  (* struct decl *)
    ; TypeIDField  (* parent *)
    ].

Definition TypeAliasLayout : BCGenericRecordLayout :=
  BCRecordLayout TYPE_ALIAS_DECL
    [ DeclIDField          (* context decl *)
    ; TypeIDField          (* underlying type *)
    ; BCFixed 1            (* generic flag *)
    ; BCFixed 1            (* implicit flag *)
    ; BCArray TypeIDField  (* inherited types *)
    ].

Definition StructLayout : BCGenericRecordLayout :=
  BCRecordLayout STRUCT_DECL
    [ DeclIDField          (* context decl *)
    ; BCFixed 1            (* implicit flag *)
    ; BCArray TypeIDField  (* inherited types *)
    ].

Definition ConstructorLayout : BCGenericRecordLayout :=
  BCRecordLayout CONSTRUCTOR_DECL
    [ DeclIDField  (* context decl *)
    ; BCFixed 1    (* implicit flag *)
    ; DeclIDField  (* implicit this decl *)
    ].

Definition VarLayout : BCGenericRecordLayout :=
  BCRecordLayout VAR_DECL
    [ DeclIDField  (* context decl *)
    ; BCFixed 1    (* implicit flag *)
    ; BCFixed 1    (* never lvalue flag *)
    ; TypeIDField  (* type *)
    ; DeclIDField  (* getter *)
    ; DeclIDField  (* setter *)
    ; DeclIDField  (* overridden decl *)
    ].

Definition DeclContextLayout : BCGenericRecordLayout :=
  BCRecordLayout DECL_CONTEXT
    [ BCArray DeclIDField ].

(** Names will eventually be uniqued in an identifier table, but for now
    they are stored as trailing records. *)
Definition NameHackLayout : BCGenericRecordLayout :=
  BCRecordLayout NAME_HACK [ BCBlob ].

Definition records : list (N * BCGenericRecordLayout) :=
  [ (BUILTIN_TYPE, BuiltinTypeLayout)
  ; (NAME_ALIAS_TYPE, NameAliasTypeLayout)
  ; (STRUCT_TYPE, StructTypeLayout)
  ; (TYPE_ALIAS_DECL, TypeAliasLayout)
  ; (STRUCT_DECL, StructLayout)
  ; (CONSTRUCTOR_DECL, ConstructorLayout)
  ; (VAR_DECL, VarLayout)
  ; (DECL_CONTEXT, DeclContextLayout)
  ; (NAME_HACK, NameHackLayout)
  ].
End decls_block.

(** ** The record types within the index block *)
Module index_block.
Definition TYPE_OFFSETS : N := 1.
Definition DECL_OFFSETS : N := TYPE_OFFSETS + 1.
Definition TOP_LEVEL_DECLS : N := DECL_OFFSETS + 1.

Definition OffsetsLayout : BCGenericRecordLayout :=
  {| layout_id := BCFixed 2  (* record ID *)
   ; layout_fields := [ BCArray BitOffsetField ] |}.

Definition TopLevelDeclsLayout : BCGenericRecordLayout :=
  BCRecordLayout TOP_LEVEL_DECLS
    [ BCArray DeclIDField ].

Definition records : list (N * BCGenericRecordLayout) :=
  [ (TYPE_OFFSETS, OffsetsLayout)
  ; (DECL_OFFSETS, OffsetsLayout)
  ; (TOP_LEVEL_DECLS, TopLevelDeclsLayout)
  ].
End index_block.

(** ** The schema as a whole: every record code of every block with its
    layout.  The fallback block holds no records. *)
Definition blockRecords (first : N) : list (N * list (N * BCGenericRecordLayout)) :=
  [ (CONTROL_BLOCK_ID first, control_block.records)
  ; (INPUT_BLOCK_ID first, input_block.records)
  ; (DECLS_AND_TYPES_BLOCK_ID first, decls_block.records)
  ; (INDEX_BLOCK_ID first, index_block.records)
  ; (FALL_BACK_TO_TRANSLATION_UNIT_ID, [])
  ].

Definition registry (first : N) : list (N * N * BCGenericRecordLayout) :=
  flat_map (fun b => map (fun r => (fst b, fst r, snd r)) (snd b))
           (blockRecords first).

Definition allLayouts : list BCGenericRecordLayout :=
  map snd (control_block.records ++ input_block.records
           ++ decls_block.records ++ index_block.records).


(** ** Shape of a layout

    A payload (blob or array) may only be the last field of a layout, and an
    array repeats one scalar element kind. *)
Definition wellFormedField (f : BCField) : bool :=
  match f with
  | BCArray e => isScalar e
  | BCLiteral _ | BCFixed _ | BCBlob => true
  end.

Fixpoint payloadIsTrailing (fs : list BCField) : bool :=
  match fs with
  | [] => true
  | f :: rest =>
      match rest with
      | [] => wellFormedField f
      | _ :: _ => isScalar f && payloadIsTrailing rest
      end
  end.

Definition wellFormedLayout (l : BCGenericRecordLayout) : bool :=
  isScalar (layout_id l) && payloadIsTrailing (layout_fields l).

Definition payloadCount (fs : list BCField) : nat :=
  length (filter isPayload fs).

(** The shape in words: some scalar fields, then nothing, one blob, or one
    array of a scalar kind. *)
Definition TrailingPayloadShape (fs : list BCField) : Prop :=
  exists scalars tail,
    fs = scalars ++ tail /\
    forallb isScalar scalars = true /\
    (tail = [] \/ tail = [BCBlob] \/
     exists e, isScalar e = true /\ tail = [BCArray e]).

(** ** The schema as the specification words it

    A second description of the records, written from the specification:
    fixed-width unsigned integers, single-bit flags, 31-bit identifiers of
    declarations or types, 31-bit offsets, blobs and arrays. *)
Inductive SpecField : Type :=
| SpecUnsigned (bits : N)
| SpecFlag
| SpecIdentifier (kind : DeclOrType)
| SpecOffset
| SpecBlob
| SpecArrayOf (elt : SpecField).

Fixpoint onDisk (f : SpecField) : BCField :=
  match f with
  | SpecUnsigned b => BCFixed b
  | SpecFlag => BCFixed 1
  | SpecIdentifier _ => BCFixed 31
  | SpecOffset => BCFixed 31
  | SpecBlob => BCBlob
  | SpecArrayOf e => BCArray (onDisk e)
  end.

(** Section 6 of the specification, Decls-and-Types block. *)
Definition spec_decls_and_types : list (N * list SpecField) :=
  [ (1,   [ SpecBlob ])
  ; (2,   [ SpecIdentifier IsDecl ])
  ; (3,   [ SpecIdentifier IsDecl; SpecIdentifier IsType ])
  ; (100, [ SpecIdentifier IsDecl; SpecIdentifier IsType; SpecFlag; SpecFlag
          ; SpecArrayOf (SpecIdentifier IsType) ])
  ; (101, [ SpecIdentifier IsDecl; SpecFlag
          ; SpecArrayOf (SpecIdentifier IsType) ])
  ; (102, [ SpecIdentifier IsDecl; SpecFlag; SpecIdentifier IsDecl ])
  ; (103, [ SpecIdentifier IsDecl; SpecFlag; SpecFlag; SpecIdentifier IsType
          ; SpecIdentifier IsDecl; SpecIdentifier IsDecl
          ; SpecIdentifier IsDecl ])
  ; (254, [ SpecArrayOf (SpecIdentifier IsDecl) ])
  ; (255, [ SpecBlob ])
  ].

(** Section 6 of the specification, Control block. *)
Definition spec_metadata : N * list SpecField :=
  (1, [ SpecUnsigned 16; SpecUnsigned 16; SpecBlob ]).

(** Section 6 of the specification, Index block: the generic offsets record
    (discriminator width, then fields) and the top-level declarations. *)
Definition spec_offsets : SpecField * list SpecField :=
  (SpecUnsigned 2, [ SpecArrayOf SpecOffset ]).

Definition spec_top_level_decls : N * list SpecField :=
  (3, [ SpecArrayOf (SpecIdentifier IsDecl) ]).

(** The code and the fields of a registered record, for comparison. *)
Definition describe (r : N * BCGenericRecordLayout) : N * list BCField :=
  (fst r, layout_fields (snd r)).

Definition specOnDisk (s : N * list SpecField) : N * list BCField :=
  (fst s, map onDisk (snd s)).

(** ** Decoded contents of a file

    Modelled from the spec: what the bit-level substrate hands to the reader,
    blocks of records, each record a code, scalar values and at most one
    payload.  The substrate itself is an external library. *)
Inductive Payload : Type :=
| NoPayload
| BlobPayload (bytes : list N)
| ArrayPayload (elements : list N).

Record RecordData : Type := mkRecord {
  rec_code : N;
  rec_scalars : list N;
  rec_payload : Payload
}.

Record BlockData : Type := mkBlock {
  blk_id : N;
  blk_records : list RecordData
}.

(** Modelled from the spec: decoding a record validates its field schema
    against the layout registered for its code (section 4.3, step 5). *)
Fixpoint matchesFields (fs : list BCField) (vs : list N) (p : Payload) : bool :=
  match fs with
  | [] =>
      match vs, p with
      | [], NoPayload => true
      | _, _ => false
      end
  | BCBlob :: rest =>
      match rest, vs, p with
      | [], [], BlobPayload _ => true
      | _, _, _ => false
      end
  | BCArray e :: rest =>
      match rest, vs, p with
      | [], [], ArrayPayload xs => forallb (fieldAccepts e) xs
      | _, _, _ => false
      end
  | f :: rest =>
      match vs with
      | v :: vs' => fieldAccepts f v && matchesFields rest vs' p
      | [] => false
      end
  end.

Definition matchesLayout (l : BCGenericRecordLayout) (r : RecordData) : bool :=
  fieldAccepts (layout_id l) (rec_code r)
  && matchesFields (layout_fields l) (rec_scalars r) (rec_payload r).

(** ** The reader

    Modelled from the spec: the Container Reader of section 4.3 and its
    outcomes (sections 6 and 7).  The reader is implemented outside
    ModuleFormat.h, which only provides the constants and layouts that it
    consults. *)
Inductive ErrorKind : Type :=
| SignatureMismatch
| VersionIncompatible
| MalformedRecord
| DanglingReference
| UnknownBlockOrRecord.

Record ModuleHandle : Type := mkHandle {
  h_declOffsets : list N;
  h_typeOffsets : list N;
  h_topLevelDecls : list N;
  h_dependencies : list (list N)
}.

Inductive LoadOutcome : Type :=
| Loaded (handle : ModuleHandle)
| FallbackRequested
| Error (kind : ErrorKind).

(** Step 1: the first four bytes against the signature. *)
Definition hasSignature (bytes : list N) : bool :=
  if list_eq_dec N.eq_dec (firstn 4 bytes) SIGNATURE then true else false.

Section Reader.
Variable first : N.

Definition findBlock (id : N) (blocks : list BlockData) : option BlockData :=
  find (fun b => blk_id b =? id) blocks.

(** Step 2: the version pair of the control block's METADATA record. *)
Definition readControl (blocks : list BlockData) : option (N * N) :=
  match findBlock (CONTROL_BLOCK_ID first) blocks with
  | None => None
  | Some b =>
      match find (fun r => rec_code r =? control_block.METADATA)
                 (blk_records b) with
      | None => None
      | Some r =>
          if matchesLayout control_block.MetadataLayout r then
            match rec_scalars r with
            | [major; minor] => Some (major, minor)
            | _ => None
            end
          else None
      end
  end.

(** Step 3: is a fallback block met before, or instead of, the index block? *)
Fixpoint fallbackBeforeIndex (blocks : list BlockData) : bool :=
  match blocks with
  | [] => false
  | b :: rest =>
      if blk_id b =? FALL_BACK_TO_TRANSLATION_UNIT_ID then true
      else if blk_id b =? INDEX_BLOCK_ID first then false
      else fallbackBeforeIndex rest
  end.

(** The input block's contents: one path per SOURCE_FILE record. *)
Definition readDependencies (blocks : list BlockData) : list (list N) :=
  match findBlock (INPUT_BLOCK_ID first) blocks with
  | None => []
  | Some b =>
      flat_map (fun r =>
                  if matchesLayout input_block.SourceFileLayout r then
                    match rec_payload r with
                    | BlobPayload path => [path]
                    | _ => []
                    end
                  else [])
               (blk_records b)
  end.

(** Step 4: the offset tables and the top-level declarations.  A record of
    a known code must match its layout; records of other codes are skipped. *)
Fixpoint readIndex (rs : list RecordData) (h : ModuleHandle)
  : option ModuleHandle :=
  match rs with
  | [] => Some h
  | r :: rest =>
      let array :=
        match rec_payload r with
        | ArrayPayload xs => xs
        | _ => []
        end in
      if rec_code r =? index_block.TYPE_OFFSETS then
        if matchesLayout index_block.OffsetsLayout r then
          readIndex rest (mkHandle (h_declOffsets h) array
                                   (h_topLevelDecls h) (h_dependencies h))
        else None
      else if rec_code r =? index_block.DECL_OFFSETS then
        if matchesLayout index_block.OffsetsLayout r then
          readIndex rest (mkHandle array (h_typeOffsets h)
                                   (h_topLevelDecls h) (h_dependencies h))
        else None
      else if rec_code r =? index_block.TOP_LEVEL_DECLS then
        if matchesLayout index_block.TopLevelDeclsLayout r then
          readIndex rest (mkHandle (h_declOffsets h) (h_typeOffsets h)
                                   array (h_dependencies h))
        else None
      else readIndex rest h
  end.

(** The gate of step 2: only the major version is compared. *)
Definition versionCompatible (major : N) : bool := major =? VERSION_MAJOR.

(** Steps 2 to 4 on the decoded blocks. *)
Definition openBlocks (blocks : list BlockData) : LoadOutcome :=
  match readControl blocks with
  | None => Error MalformedRecord
  | Some (major, _) =>
      if negb (versionCompatible major) then Error VersionIncompatible
      else if fallbackBeforeIndex blocks then FallbackRequested
      else
        let empty := mkHandle [] [] [] (readDependencies blocks) in
        match findBlock (INDEX_BLOCK_ID first) blocks with
        | None => Loaded empty
        | Some b =>
            match readIndex (blk_records b) empty with
            | Some h => Loaded h
            | None => Error MalformedRecord
            end
        end
  end.

(** The substrate's decoder of the bytes that follow the signature. *)
Variable decodeBlocks : list N -> list BlockData.

(** [open(bytes)]: steps 1 to 4. *)
Definition open (bytes : list N) : LoadOutcome :=
  if hasSignature bytes then openBlocks (decodeBlocks (skipn 4 bytes))
  else Error SignatureMismatch.
End Reader.




(** ** A sample file

    A file image in which a fallback block sits between well-formed blocks,
    and a stand-in for the substrate's decoder that yields its blocks. *)
Definition sample_blocks : list BlockData :=
  [ mkBlock 8 [ mkRecord 1 [1; 0] (BlobPayload [0x73; 0x77]) ]
  ; mkBlock 9 [ mkRecord 1 [] (BlobPayload [0x61; 0x2E; 0x73]) ]
  ; mkBlock 10 [ mkRecord 102 [0; 0; 0] NoPayload
               ; mkRecord 103 [1; 0; 0; 0; 0; 0; 0] NoPayload ]
  ; mkBlock 100 []
  ; mkBlock 11 [ mkRecord 2 [] (ArrayPayload [0; 64; 128])
               ; mkRecord 3 [] (ArrayPayload [1]) ]
  ].

Definition sample_bytes : list N := SIGNATURE ++ [0x42; 0x43; 0xC0; 0xDE].

Definition sample_decoder (rest : list N) : list BlockData :=
  match rest with
  | [] => []
  | _ :: _ => sample_blocks
  end.







(** ** Views of the schema

    The block and the code under which a layout is registered, the blocks
    that register a given code, the declaration records of the
    decls-and-types block (TYPE_ALIAS_DECL to VAR_DECL), and the element kind
    of an array field. *)
Definition blockOf (e : N * N * BCGenericRecordLayout) : N := fst (fst e).

Definition codeOf (e : N * N * BCGenericRecordLayout) : N := snd (fst e).

Definition blocksUsingCode (first code : N) : list N :=
  map blockOf (filter (fun e => codeOf e =? code) (registry first)).

Definition declRecords : list (N * BCGenericRecordLayout) :=
  filter (fun r => (decls_block.TYPE_ALIAS_DECL <=? fst r)
                   && (fst r <=? decls_block.VAR_DECL))
         decls_block.records.

Definition arrayElementIs (elt : BCField) (f : BCField) : bool :=
  match f with
  | BCArray e => BCField_eqb e elt
  | BCLiteral _ | BCFixed _ | BCBlob => true
  end.

Definition fixedWidthIn (widths : list N) (f : BCField) : bool :=
  match f with
  | BCFixed w => existsb (N.eqb w) widths
  | BCLiteral _ | BCBlob | BCArray _ => true
  end.


(** The record-ID field of a layout together with its fields, and the
    fixed-width fields found among them in a list of registered records. *)
Definition allFields (l : BCGenericRecordLayout) : list BCField :=
  layout_id l :: layout_fields l.

Definition isFixed (f : BCField) : bool :=
  match f with
  | BCFixed _ => true
  | BCLiteral _ | BCBlob | BCArray _ => false
  end.

Definition fixedFieldsOf (rs : list (N * BCGenericRecordLayout))
  : list BCField :=
  flat_map (fun r => filter isFixed (allFields (snd r))) rs.


(** * Properties of the schema *)

(** ** Helper lemmas *)

Lemma isScalar_not_payload (f : BCField) :
  isScalar f = true -> isPayload f = false.
Proof. unfold isScalar. now destruct (isPayload f). Qed.

Lemma payloadIsTrailing_shape (fs : list BCField) :
  payloadIsTrailing fs = true -> TrailingPayloadShape fs.
Proof.
  induction fs as [| f rest IH]; intro H.
  - exists [], []. repeat split; auto.
  - destruct rest as [| g rest'].
    + destruct f as [c | w | | e]; simpl in H.
      * exists [BCLiteral c], []. repeat split; auto.
      * exists [BCFixed w], []. repeat split; auto.
      * exists [], [BCBlob]. repeat split; auto.
      * exists [], [BCArray e]. repeat split; eauto.
    + change (isScalar f && payloadIsTrailing (g :: rest') = true) in H.
      apply andb_prop in H as [Hf Hrest].
      destruct (IH Hrest) as (scalars & tail & Heq & Hsc & Htail).
      exists (f :: scalars), tail. split; [| split]; auto.
      * simpl. now rewrite Heq.
      * simpl. now rewrite Hf, Hsc.
Qed.

Lemma payloadIsTrailing_count (fs : list BCField) :
  payloadIsTrailing fs = true -> (payloadCount fs <= 1)%nat.
Proof.
  unfold payloadCount.
  induction fs as [| f rest IH]; intro H; simpl; [lia |].
  destruct rest as [| g rest'].
  - destruct (isPayload f); simpl; lia.
  - change (isScalar f && payloadIsTrailing (g :: rest') = true) in H.
    apply andb_prop in H as [Hf Hrest].
    rewrite (isScalar_not_payload _ Hf). now apply IH.
Qed.


Lemma openBlocks_never_signature (first : N) (blocks : list BlockData) :
  openBlocks first blocks <> Error SignatureMismatch.
Proof.
  unfold openBlocks.
  destruct (readControl first blocks) as [[major minor] |]; [| discriminate].
  destruct (negb (versionCompatible major)); [discriminate |].
  destruct (fallbackBeforeIndex first blocks); [discriminate |].
  destruct (findBlock (INDEX_BLOCK_ID first) blocks) as [b |]; [| discriminate].
  destruct (readIndex _ _); discriminate.
Qed.

Lemma hasSignature_firstn (bytes : list N) :
  hasSignature bytes = true <-> firstn 4 bytes = SIGNATURE.
Proof.
  unfold hasSignature.
  destruct (list_eq_dec N.eq_dec (firstn 4 bytes) SIGNATURE); split;
    auto; discriminate.
Qed.

(** ** The claims *)

(** C1: every record kind of the Decls-and-Types block has the numeric code
    and the ordered field list that the specification gives: codes 1, 2, 3,
    100, 101, 102, 103, 254 and 255, each the literal code of its layout,
    with identifiers stored as 31-bit fields, flags as 1-bit fields, and the
    blob or the array of identifiers last. *)
Theorem decls_block_codes_and_fields :
  map describe decls_block.records = map specOnDisk spec_decls_and_types
  /\ Forall (fun r => layout_id (snd r) = BCLiteral (fst r)) decls_block.records
  /\ Forall (fun r => fst r < 2 ^ 8) decls_block.records
  /\ (decls_block.BUILTIN_TYPE = 1 /\ decls_block.NAME_ALIAS_TYPE = 2 /\
      decls_block.STRUCT_TYPE = 3 /\ decls_block.TYPE_ALIAS_DECL = 100 /\
      decls_block.STRUCT_DECL = 101 /\ decls_block.CONSTRUCTOR_DECL = 102 /\
      decls_block.VAR_DECL = 103 /\ decls_block.DECL_CONTEXT = 254 /\
      decls_block.NAME_HACK = 255)
  /\ decls_block.VarLayout =
       BCRecordLayout 103
         [BCFixed 31; BCFixed 1; BCFixed 1; BCFixed 31; BCFixed 31; BCFixed 31;
          BCFixed 31]
  /\ decls_block.TypeAliasLayout =
       BCRecordLayout 100
         [BCFixed 31; BCFixed 31; BCFixed 1; BCFixed 1; BCArray (BCFixed 31)].
Proof.
  split; [reflexivity |].
  split; [repeat constructor |].
  split; [repeat constructor |].
  split; [repeat split |].
  split; reflexivity.
Qed.

(** C3: in the index block TYPE_OFFSETS is 1 and DECL_OFFSETS is 2, both
    registered with the one generic layout made of a 2-bit record
    discriminator and a trailing array of offsets; TOP_LEVEL_DECLS is 3 with a
    trailing array of declaration identifiers; and the 2-bit discriminator
    can hold each of the three codes (it holds exactly the values below 4). *)
Theorem index_block_layouts :
  index_block.records =
    [ (1, index_block.OffsetsLayout); (2, index_block.OffsetsLayout)
    ; (3, index_block.TopLevelDeclsLayout) ]
  /\ (index_block.TYPE_OFFSETS = 1 /\ index_block.DECL_OFFSETS = 2 /\
      index_block.TOP_LEVEL_DECLS = 3)
  /\ layout_id index_block.OffsetsLayout = onDisk (fst spec_offsets)
  /\ layout_fields index_block.OffsetsLayout = map onDisk (snd spec_offsets)
  /\ layout_fields index_block.OffsetsLayout = [BCArray BitOffsetField]
  /\ describe (index_block.TOP_LEVEL_DECLS, index_block.TopLevelDeclsLayout)
       = specOnDisk spec_top_level_decls
  /\ layout_id index_block.TopLevelDeclsLayout = BCLiteral 3
  /\ Forall (fun r => fieldAccepts (layout_id index_block.OffsetsLayout) (fst r) = true)
            index_block.records
  /\ (forall code, fieldAccepts (layout_id index_block.OffsetsLayout) code
                   = (code <? 4)).
Proof.
  repeat split; try reflexivity.
  repeat constructor.
Qed.

(** C4: declaration and type identifiers share one 31-bit unsigned space:
    TypeID is the very type DeclID, namely Fixnum<31>, TypeIDField is the
    very field DeclIDField, namely BCFixed<31>, and a value is accepted as
    one exactly when it is accepted as the other, that is when it is below
    2^31. *)
Theorem TypeID_is_DeclID :
  TypeID = DeclID
  /\ DeclID = Fixnum 31
  /\ TypeIDField = DeclIDField
  /\ DeclIDField = BCFixed 31
  /\ (forall d : DeclID, fieldAccepts TypeIDField (fixnum_value d) = true)
  /\ (forall t : TypeID, fieldAccepts DeclIDField (fixnum_value t) = true)
  /\ (forall v, fieldAccepts DeclIDField v = fieldAccepts TypeIDField v)
  /\ (forall v, fieldAccepts DeclIDField v = (v <? 2 ^ 31)).
Proof.
  repeat split; try reflexivity.
  - intro d. exact (fixnum_inrange d).
  - intro t. exact (fixnum_inrange t).
Qed.

(** C5: the control block's METADATA record has code 1 and is made, in this
    order, of a 16-bit major version, a 16-bit minor version and one trailing
    blob, the only payload of the record. *)
Theorem MetadataLayout_fields :
  control_block.METADATA = 1
  /\ layout_id control_block.MetadataLayout = BCLiteral 1
  /\ layout_fields control_block.MetadataLayout = [BCFixed 16; BCFixed 16; BCBlob]
  /\ describe (control_block.METADATA, control_block.MetadataLayout)
       = specOnDisk spec_metadata
  /\ payloadCount (layout_fields control_block.MetadataLayout) = 1%nat
  /\ control_block.records = [(1, control_block.MetadataLayout)]
  /\ (forall major minor info,
        matchesLayout control_block.MetadataLayout
          (mkRecord 1 [major; minor] (BlobPayload info))
        = (major <? 2 ^ 16) && (minor <? 2 ^ 16)).
Proof.
  repeat split; try reflexivity.
  intros major minor info. unfold matchesLayout. simpl.
  now rewrite andb_true_r.
Qed.

(** C10: the current format version is major 1, minor 0; both numbers fit the
    16-bit fields of the METADATA record, and the reader's version gate lets
    through exactly major version 1. *)
Theorem current_version_is_1_0 :
  VERSION_MAJOR = 1
  /\ VERSION_MINOR = 0
  /\ (forall info,
        matchesLayout control_block.MetadataLayout
          (mkRecord control_block.METADATA [VERSION_MAJOR; VERSION_MINOR]
                    (BlobPayload info)) = true)
  /\ (forall major, versionCompatible major = (major =? 1)).
Proof.
  repeat split; reflexivity.
Qed.

(** C7: every layout registered in any block has scalar fields followed by
    at most one payload, a single blob or a single array of one scalar kind,
    never both, and nothing after the payload. *)
Theorem registered_layouts_payload_last :
  forall first,
    length (registry first) = 14%nat
    /\ Forall (fun e =>
                 TrailingPayloadShape (layout_fields (snd e))
                 /\ (payloadCount (layout_fields (snd e)) <= 1)%nat
                 /\ wellFormedLayout (snd e) = true)
              (registry first).
Proof.
  intro first. split; [reflexivity |].
  assert (Hwf : Forall (fun e => wellFormedLayout (snd e) = true)
                       (registry first)) by (repeat constructor).
  eapply Forall_impl; [| exact Hwf].
  intros e He. unfold wellFormedLayout in He.
  apply andb_prop in He as [Hid Hfs].
  split; [now apply payloadIsTrailing_shape |].
  split; [now apply payloadIsTrailing_count |].
  unfold wellFormedLayout. now rewrite Hid, Hfs.
Qed.

(** C8: when the first application block identifier leaves room below 100,
    the five block identifiers are pairwise distinct and at most 100, the
    record codes registered in each block are pairwise distinct, and no
    (block identifier, record code) pair occurs twice in the schema. *)
Theorem block_ids_and_record_codes_distinct :
  forall first,
    first + 3 < 100 ->
    length (blockIDs first) = 5%nat
    /\ NoDup (blockIDs first)
    /\ Forall (fun id => id <= 100) (blockIDs first)
    /\ map fst (blockRecords first) = blockIDs first
    /\ Forall (fun b => NoDup (map fst (snd b))) (blockRecords first)
    /\ NoDup (map fst (registry first)).
Proof.
  intros first Hroom.
  assert (Hids : NoDup (blockIDs first)).
  { unfold blockIDs, normalBlockIDs, INDEX_BLOCK_ID, DECLS_AND_TYPES_BLOCK_ID,
      INPUT_BLOCK_ID, CONTROL_BLOCK_ID, FALL_BACK_TO_TRANSLATION_UNIT_ID.
    simpl.
    repeat constructor; simpl; intuition lia. }
  split; [reflexivity |].
  split; [exact Hids |].
  split.
  { unfold blockIDs, normalBlockIDs, INDEX_BLOCK_ID, DECLS_AND_TYPES_BLOCK_ID,
      INPUT_BLOCK_ID, CONTROL_BLOCK_ID, FALL_BACK_TO_TRANSLATION_UNIT_ID.
    simpl. repeat constructor; lia. }
  split; [reflexivity |].
  split.
  { repeat constructor; simpl; intuition discriminate. }
  unfold registry, blockRecords, INDEX_BLOCK_ID, DECLS_AND_TYPES_BLOCK_ID,
    INPUT_BLOCK_ID, CONTROL_BLOCK_ID, FALL_BACK_TO_TRANSLATION_UNIT_ID.
  simpl.
  repeat constructor; simpl;
    intros Hin;
    repeat (destruct Hin as [Hin | Hin];
            [ injection Hin; intros; try discriminate; lia | ]);
    exact Hin.
Qed.

Lemma block_ids_and_record_codes_distinct_witness :
  NoDup (blockIDs llvm_FIRST_APPLICATION_BLOCKID)
  /\ NoDup (map fst (registry llvm_FIRST_APPLICATION_BLOCKID)).
Proof.
  assert (Hroom : llvm_FIRST_APPLICATION_BLOCKID + 3 < 100) by reflexivity.
  pose proof (block_ids_and_record_codes_distinct
                llvm_FIRST_APPLICATION_BLOCKID Hroom) as H.
  split; [exact (proj1 (proj2 H)) |].
  exact (proj2 (proj2 (proj2 (proj2 (proj2 H))))).
Defined.

(** C2: the signature is the four bytes E2 9C A8 0E; a file that the reader
    does not refuse with SignatureMismatch carries them at bytes 0 to 3, a
    file that does not carry them is refused whatever else it holds, a file
    that carries them is never refused for its signature, and any two files
    that pass carry the same four bytes, whatever version their control
    blocks state. *)
Theorem signature_is_E2_9C_A8_0E :
  SIGNATURE = [0xE2; 0x9C; 0xA8; 0x0E]
  /\ length SIGNATURE = 4%nat
  /\ Forall (fun b => b < 256) SIGNATURE
  /\ (forall first decode bytes,
        open first decode bytes <> Error SignatureMismatch ->
        nth_error bytes 0 = Some 0xE2 /\ nth_error bytes 1 = Some 0x9C /\
        nth_error bytes 2 = Some 0xA8 /\ nth_error bytes 3 = Some 0x0E)
  /\ (forall first decode bytes,
        firstn 4 bytes <> SIGNATURE ->
        open first decode bytes = Error SignatureMismatch)
  /\ (forall first decode bytes,
        firstn 4 bytes = SIGNATURE ->
        open first decode bytes <> Error SignatureMismatch)
  /\ (forall first decode decode' bytes bytes',
        open first decode bytes <> Error SignatureMismatch ->
        open first decode' bytes' <> Error SignatureMismatch ->
        firstn 4 bytes = firstn 4 bytes').
Proof.
  assert (Hpass : forall first decode bytes,
             open first decode bytes <> Error SignatureMismatch ->
             firstn 4 bytes = SIGNATURE).
  { intros first decode bytes H. apply hasSignature_firstn.
    unfold open in H. destruct (hasSignature bytes); [reflexivity |].
    now contradiction H. }
  split; [reflexivity |].
  split; [reflexivity |].
  split; [repeat constructor |].
  split; [| split; [| split]].
  - intros first decode bytes H. apply Hpass in H.
    destruct bytes as [| b0 [| b1 [| b2 [| b3 rest]]]]; try discriminate H.
    simpl in H. injection H as -> -> -> ->. repeat split.
  - intros first decode bytes H. unfold open.
    destruct (hasSignature bytes) eqn:Hs; [| reflexivity].
    apply hasSignature_firstn in Hs. contradiction.
  - intros first decode bytes H. unfold open.
    apply hasSignature_firstn in H. rewrite H.
    apply openBlocks_never_signature.
  - intros first decode decode' bytes bytes' H H'.
    rewrite (Hpass _ _ _ H), (Hpass _ _ _ H'). reflexivity.
Qed.

Lemma signature_is_E2_9C_A8_0E_witness :
  nth_error sample_bytes 0 = Some 0xE2 /\ nth_error sample_bytes 1 = Some 0x9C /\
  nth_error sample_bytes 2 = Some 0xA8 /\ nth_error sample_bytes 3 = Some 0x0E.
Proof.
  apply (proj1 (proj2 (proj2 (proj2 signature_is_E2_9C_A8_0E)))
           llvm_FIRST_APPLICATION_BLOCKID sample_decoder sample_bytes).
  vm_compute. discriminate.
Defined.




(** The same sample file without its fallback block loads: the index block
    is parsed into the offset tables and the top-level declarations. *)
Example sample_without_fallback_loads :
  openBlocks llvm_FIRST_APPLICATION_BLOCKID
    (filter (fun b => negb (blk_id b =? FALL_BACK_TO_TRANSLATION_UNIT_ID))
            sample_blocks)
  = Loaded (mkHandle [0; 64; 128] [] [1] [[0x61; 0x2E; 0x73]]).
Proof. reflexivity. Qed.

(** * Further properties of the schema *)

Lemma BCField_eqb_eq (a b : BCField) : BCField_eqb a b = true <-> a = b.
Proof.
  revert b. induction a as [x | x | | a IH]; intros [y | y | | b]; simpl;
    try (split; [discriminate | discriminate]).
  - rewrite N.eqb_eq. split; [now intros -> | now injection 1].
  - rewrite N.eqb_eq. split; [now intros -> | now injection 1].
  - split; reflexivity.
  - rewrite IH. split; [now intros -> | now injection 1].
Qed.

Lemma fallback_among_normal_ids (first : N) :
  In FALL_BACK_TO_TRANSLATION_UNIT_ID (normalBlockIDs first)
  <-> 97 <= first /\ first <= 100.
Proof.
  unfold normalBlockIDs, INDEX_BLOCK_ID, DECLS_AND_TYPES_BLOCK_ID,
    INPUT_BLOCK_ID, CONTROL_BLOCK_ID, FALL_BACK_TO_TRANSLATION_UNIT_ID.
  simpl. lia.
Qed.

Lemma normal_ids_distinct (first : N) : NoDup (normalBlockIDs first).
Proof.
  unfold normalBlockIDs, INDEX_BLOCK_ID, DECLS_AND_TYPES_BLOCK_ID,
    INPUT_BLOCK_ID, CONTROL_BLOCK_ID.
  repeat constructor; simpl; intuition lia.
Qed.

(** X1: whatever the first application block identifier is, the four normal
    block identifiers are consecutive and pairwise distinct; the fallback
    identifier 100 collides with one of them exactly when the first
    identifier lies between 97 and 100, so the five identifiers are pairwise
    distinct exactly when it lies outside that range. *)
Theorem block_ids_consecutive_and_collision_range :
  forall first,
    (INPUT_BLOCK_ID first = CONTROL_BLOCK_ID first + 1
     /\ DECLS_AND_TYPES_BLOCK_ID first = CONTROL_BLOCK_ID first + 2
     /\ INDEX_BLOCK_ID first = CONTROL_BLOCK_ID first + 3)
    /\ NoDup (normalBlockIDs first)
    /\ (In FALL_BACK_TO_TRANSLATION_UNIT_ID (normalBlockIDs first)
        <-> 97 <= first /\ first <= 100)
    /\ (NoDup (blockIDs first) <-> first < 97 \/ 100 < first).
Proof.
  intro first.
  split.
  { unfold INDEX_BLOCK_ID, DECLS_AND_TYPES_BLOCK_ID, INPUT_BLOCK_ID,
      CONTROL_BLOCK_ID. lia. }
  split; [apply normal_ids_distinct |].
  split; [apply fallback_among_normal_ids |].
  unfold blockIDs. split.
  - intro Hnd. apply NoDup_remove_2 in Hnd. rewrite app_nil_r in Hnd.
    rewrite fallback_among_normal_ids in Hnd. lia.
  - intro Hout.
    assert (Hnot : ~ In FALL_BACK_TO_TRANSLATION_UNIT_ID (normalBlockIDs first))
      by (rewrite fallback_among_normal_ids; lia).
    pose proof (normal_ids_distinct first) as Hn.
    revert Hnot Hn. generalize (normalBlockIDs first) as ids.
    induction ids as [| i ids IH]; simpl; intros Hnot Hn.
    + repeat constructor. intros [].
    + apply NoDup_cons_iff in Hn as [Hi Hn]. constructor.
      * rewrite in_app_iff. simpl. intuition.
      * apply IH; intuition.
Qed.

(** X2: record codes are scoped to their block.  Code 1 is registered in
    each of the four normal blocks, every code of the index block is also a
    code of the decls-and-types block, so the codes of the schema taken alone
    repeat; and the source-file record of the input block and the
    builtin-type record of the decls-and-types block have the same code and
    the same fields, so only the enclosing block tells them apart. *)
Theorem record_codes_are_block_scoped :
  forall first,
    blocksUsingCode first 1 = normalBlockIDs first
    /\ Forall (fun r => In (fst r) (map fst decls_block.records))
              index_block.records
    /\ ~ NoDup (map codeOf (registry first))
    /\ input_block.SourceFileLayout = decls_block.BuiltinTypeLayout
    /\ layout_fields index_block.TopLevelDeclsLayout
       = layout_fields decls_block.DeclContextLayout.
Proof.
  intro first.
  split; [reflexivity |].
  split.
  { repeat (constructor; [vm_compute; auto 10 |]). constructor. }
  split; [| split; reflexivity].
  intro Hnd. apply NoDup_cons_iff in Hnd as [Hnot _].
  apply Hnot. simpl. auto.
Qed.

(** X3: the code spaces are bounded by their carriers.  The decls-and-types
    codes are 8-bit values and NAME_HACK, 255, is the largest of them that
    exists; the 2-bit code field of the generic offsets layout admits exactly
    0 and the three codes registered in the index block, TOP_LEVEL_DECLS
    being the largest value it can hold. *)
Theorem record_code_spaces_are_bounded :
  (forall code, code < 2 ^ 8 <-> code <= decls_block.NAME_HACK)
  /\ Forall (fun r => fst r <= decls_block.NAME_HACK) decls_block.records
  /\ (forall code,
        fieldAccepts (layout_id index_block.OffsetsLayout) code = true
        <-> code = 0 \/ In code (map fst index_block.records))
  /\ (forall code,
        fieldAccepts (layout_id index_block.OffsetsLayout) code = true
        <-> code <= index_block.TOP_LEVEL_DECLS).
Proof.
  split.
  { intro code. unfold decls_block.NAME_HACK. change (2 ^ 8) with 256. lia. }
  split.
  { repeat (constructor; [vm_compute; intro H; discriminate H |]).
    constructor. }
  split; intro code;
    change (fieldAccepts (layout_id index_block.OffsetsLayout) code)
      with (code <? 4);
    rewrite N.ltb_lt.
  - change (map fst index_block.records) with [1; 2; 3]. simpl. lia.
  - change index_block.TOP_LEVEL_DECLS with 3. lia.
Qed.

(** X4: each of the four declaration records (TYPE_ALIAS_DECL, STRUCT_DECL,
    CONSTRUCTOR_DECL, VAR_DECL) begins with the 31-bit context-decl
    identifier.  The implicit flag is the second field of the struct,
    constructor and variable records, but not of the type-alias record,
    whose second field is the 31-bit underlying type and whose implicit flag
    is the fourth field. *)
Theorem decl_records_begin_with_context :
  map fst declRecords =
    [ decls_block.TYPE_ALIAS_DECL; decls_block.STRUCT_DECL
    ; decls_block.CONSTRUCTOR_DECL; decls_block.VAR_DECL ]
  /\ Forall (fun r => nth_error (layout_fields (snd r)) 0 = Some DeclIDField)
            declRecords
  /\ Forall (fun r => nth_error (layout_fields (snd r)) 1 = Some (BCFixed 1))
            (tl declRecords)
  /\ nth_error (layout_fields decls_block.TypeAliasLayout) 1 = Some TypeIDField
  /\ nth_error (layout_fields decls_block.TypeAliasLayout) 3 = Some (BCFixed 1).
Proof.
  split; [reflexivity |].
  split; [repeat constructor |].
  split; [repeat constructor |].
  split; reflexivity.
Qed.

(** X5: the fixed widths of the schema, the record-ID field counted with
    the fields of a record.  In every registered layout each array has
    31-bit elements and each fixed-width field is 1, 2, 16 or 31 bits wide.
    The record ID is the literal code in every layout but the generic offsets
    layout, whose 2-bit ID is the only fixed-width field of the index block;
    the fields after the ID are never 2 bits wide.  The control block has
    two 16-bit fields, the input block has none, and the nineteen fixed-width
    fields of the decls-and-types block are 1 or 31 bits wide. *)
Theorem fixed_widths_of_schema :
  forall first,
    Forall (fun e =>
              Forall (fun f =>
                        (forall elt, f = BCArray elt -> elt = BCFixed 31)
                        /\ (forall w, f = BCFixed w ->
                                      w = 1 \/ w = 2 \/ w = 16 \/ w = 31))
                     (allFields (snd e)))
           (registry first)
    /\ Forall (fun e =>
                 layout_id (snd e) = BCLiteral (codeOf e)
                 \/ (snd e = index_block.OffsetsLayout
                     /\ layout_id (snd e) = BCFixed 2))
              (registry first)
    /\ Forall (fun e => forallb (fixedWidthIn [1; 16; 31])
                                (layout_fields (snd e)) = true)
              (registry first)
    /\ fixedFieldsOf index_block.records = [BCFixed 2; BCFixed 2]
    /\ fixedFieldsOf control_block.records = [BCFixed 16; BCFixed 16]
    /\ fixedFieldsOf input_block.records = []
    /\ length (fixedFieldsOf decls_block.records) = 19%nat
    /\ Forall (fun f => f = BCFixed 1 \/ f = BCFixed 31)
              (fixedFieldsOf decls_block.records).
Proof.
  intro first.
  split.
  { assert (Hb : Forall (fun e =>
                           forallb (fun f => arrayElementIs (BCFixed 31) f
                                             && fixedWidthIn [1; 2; 16; 31] f)
                                   (allFields (snd e)) = true)
                        (registry first)) by (repeat constructor).
    eapply Forall_impl; [| exact Hb].
    intros e He. rewrite forallb_forall in He. apply Forall_forall.
    intros f Hf. specialize (He f Hf). apply andb_prop in He as [Ha Hw].
    split.
    - intros elt ->. simpl in Ha. now apply BCField_eqb_eq in Ha.
    - intros w ->. simpl in Hw. rewrite !orb_true_iff, !N.eqb_eq in Hw.
      intuition discriminate. }
  split.
  { repeat (constructor; [first [left; reflexivity | right; split; reflexivity] |]).
    constructor. }
  split; [repeat constructor |].
  split; [reflexivity |].
  split; [reflexivity |].
  split; [reflexivity |].
  split; [reflexivity |].
  repeat (constructor; [first [left; reflexivity | right; reflexivity] |]).
  constructor.
Qed.
